(** * The map visualization: settings schema, render selection, heat layer

    A shallow embedding of
      frontend/src/metabase/visualizations/visualizations/Map.jsx
      frontend/src/metabase/visualizations/components/LeafletHeatMap.jsx
    and the properties of their default-value inference, visibility rules,
    error reporting and prop forwarding. *)

From Stdlib Require Import ZArith Bool List.
From stdpp Require Import gmap strings list.

Open Scope string_scope.

(* stdpp's solvers clear hypotheses by name; the notes they print are noise. *)
#[local] Set Warnings "-clear-no-such-hyp".

(** ** JavaScript values and completions *)

Module JS.

#[local] Set Warnings "-register-all".

(** The values that occur in settings objects, column metadata and thrown
    exceptions.  Numbers are the integer-valued ones and NaN; an object is
    the association list of its own properties. *)
Inductive value : Type :=
| VUndefined
| VNull
| VBool (b : bool)
| VNum (n : Z)
| VNaN
| VStr (s : string)
| VObj (fields : list (string * value)).

(** ToBoolean: what [if (v)], [!v] and [v || w] test. *)
Definition truthy (v : value) : bool :=
  match v with
  | VUndefined | VNull | VNaN => false
  | VBool b => b
  | VNum n => negb (n =? 0)%Z
  | VStr s => negb (String.eqb s "")
  | VObj _ => true
  end.

(** [v || w] *)
Definition or_else (v w : value) : value := if truthy v then v else w.

(** [v === "literal"]: strict equality against a string. *)
Definition strict_eq_string (v : value) (s : string) : bool :=
  match v with
  | VStr t => String.eqb t s
  | _ => false
  end.

(** [v === null || v === undefined]: the values on which a property read
    raises a TypeError. *)
Definition nullish (v : value) : bool :=
  match v with
  | VUndefined | VNull => true
  | _ => false
  end.

(** A plain object used as a dictionary; [o[k]] is [undefined] for a key
    the object does not have. *)
Definition object := gmap string value.

Definition get (o : object) (k : string) : value := default VUndefined (o !! k).

(** Own property of an object value, [undefined] when missing. *)
Fixpoint assoc (k : string) (fields : list (string * value)) : value :=
  match fields with
  | [] => VUndefined
  | (k', v) :: rest => if String.eqb k' k then v else assoc k rest
  end.

(** What a [throw] statement or the engine raises: an instance of
    ChartSettingsError built with these constructor arguments, the
    engine's TypeError (reading a property of undefined or null), or any
    value thrown by foreign code. *)
Inductive exn : Type :=
| ChartSettingsError (message section : string)
| TypeError
| Thrown (v : value).

(** How a call completes. *)
Inductive result (E A : Type) : Type :=
| Ok (a : A)
| Raise (e : E).
Arguments Ok {E A} a.
Arguments Raise {E A} e.

End JS.

Import JS.

Notation "o .[ k ]" := (get o k) (at level 1, left associativity, format "o .[ k ]").

(** ** Query results as the visualization receives them *)

Record Column : Type := {
  name : string;
  base_type : value;
  special_type : value;
  binning_info : value;
}.

Record DatasetData : Type := {
  cols : list Column;
  rows : list (list value);
}.

Definition Settings := object.

Record Card : Type := {
  display : value;
  visualization_settings : Settings;
}.

Record SingleSeries : Type := {
  card : Card;
  data : DatasetData;
}.

Definition Series := list SingleSeries.

(** [_.findWhere(cols, { name: v })]: the first column whose [name] is
    strictly equal to [v]. *)
Definition findWhere_name (cs : list Column) (v : value) : option Column :=
  List.find (fun c => strict_eq_string v (name c)) cs.

(** ** Map.jsx *)

Module Map.

(** [const PIN_MAP_TYPES = new Set(["pin", "heat", "grid"])] *)
Definition PIN_MAP_TYPES : gset string := {[ "pin"; "heat"; "grid" ]}.

(** [PIN_MAP_TYPES.has(v)] *)
Definition PIN_MAP_TYPES_has (v : value) : bool :=
  match v with
  | VStr s => bool_decide (s ∈ PIN_MAP_TYPES)
  | _ => false
  end.

(** One entry of [static settings].  The properties contributed by the
    spreads [...fieldSetting(..)], [...metricSetting(..)] and
    [...dimensionSetting(..)] are not listed; in every entry that has a
    spread, [getHidden] is written after it and so is the one in force. *)
Record SettingDef : Type := {
  title : option string;
  widget : option string;
  default_value : option value;
  getDefault : option (Series -> Settings -> result exn string);
  getHidden : option (Series -> Settings -> bool);
}.

Definition no_def : SettingDef :=
  {| title := None; widget := None; default_value := None;
     getDefault := None; getHidden := None |}.

Section Schema.

(** [hasLatitudeAndLongitudeColumns] of metabase/lib/schema_metadata. *)
Variable hasLatitudeAndLongitudeColumns : list Column -> bool.

Definition map_type_getDefault (series : Series) (settings : Settings)
  : result exn string :=
  match series with
  | [] => Raise TypeError
  | {| card := card; data := {| cols := cols |} |} :: _ =>
    if strict_eq_string (display card) "state"
       || strict_eq_string (display card) "country" then Ok "region"
    else if strict_eq_string (display card) "pin_map" then Ok "pin"
    else if hasLatitudeAndLongitudeColumns cols then
      let latitudeColumn := findWhere_name cols settings.["map.latitude_column"] in
      let longitudeColumn := findWhere_name cols settings.["map.longitude_column"] in
      match latitudeColumn, longitudeColumn with
      | Some lat, Some lon =>
        if truthy (binning_info lat) && truthy (binning_info lon) then Ok "grid"
        else if truthy settings.["map.metric_column"] then Ok "heat"
        else Ok "pin"
      | _, _ =>
        if truthy settings.["map.metric_column"] then Ok "heat"
        else Ok "pin"
      end
    else Ok "region"
  end.

Definition map_pin_type_getDefault (series : Series) (vizSettings : Settings)
  : result exn string :=
  if strict_eq_string vizSettings.["map.type"] "heat" then Ok "heat"
  else if strict_eq_string vizSettings.["map.type"] "grid" then Ok "grid"
  else match series with
       | [] => Raise TypeError
       | s0 :: _ =>
         if (1000 <=? Z.of_nat (length (rows (data s0))))%Z then Ok "tiles"
         else Ok "markers"
       end.

Definition map_region_getDefault (series : Series) (settings : Settings)
  : result exn string :=
  match series with
  | [] => Raise TypeError
  | {| card := card |} :: _ =>
    if strict_eq_string (display card) "country" then Ok "world_countries"
    else Ok "us_states"
  end.

Definition hidden_unless_pin (series : Series) (vizSettings : Settings) : bool :=
  negb (PIN_MAP_TYPES_has vizSettings.["map.type"]).

Definition hidden_unless_region (series : Series) (vizSettings : Settings) : bool :=
  negb (strict_eq_string vizSettings.["map.type"] "region").

Definition hidden_unless_heat (series : Series) (vizSettings : Settings) : bool :=
  negb (strict_eq_string vizSettings.["map.type"] "heat").

Definition metric_column_getHidden (series : Series) (vizSettings : Settings) : bool :=
  negb (PIN_MAP_TYPES_has vizSettings.["map.type"])
  || (negb (strict_eq_string vizSettings.["map.pin_type"] "heat")
      && negb (strict_eq_string vizSettings.["map.pin_type"] "grid")).

(** [static settings = { ... }], in source order. *)
Definition settings_entries : list (string * SettingDef) :=
  [ ("map.type",
     {| title := Some "Map type"; widget := Some "select"; default_value := None;
        getDefault := Some map_type_getDefault; getHidden := None |});
    ("map.pin_type",
     {| title := Some "Pin type"; widget := None; default_value := None;
        getDefault := Some map_pin_type_getDefault;
        getHidden := Some hidden_unless_pin |});
    ("map.latitude_column",
     {| title := Some "Latitude field"; widget := None; default_value := None;
        getDefault := None; getHidden := Some hidden_unless_pin |});
    ("map.longitude_column",
     {| title := Some "Longitude field"; widget := None; default_value := None;
        getDefault := None; getHidden := Some hidden_unless_pin |});
    ("map.metric_column",
     {| title := Some "Metric field"; widget := None; default_value := None;
        getDefault := None; getHidden := Some metric_column_getHidden |});
    ("map.region",
     {| title := Some "Region map"; widget := Some "select"; default_value := None;
        getDefault := Some map_region_getDefault;
        getHidden := Some hidden_unless_region |});
    ("map.metric",
     {| title := Some "Metric field"; widget := None; default_value := None;
        getDefault := None; getHidden := Some hidden_unless_region |});
    ("map.dimension",
     {| title := Some "Region field"; widget := Some "select"; default_value := None;
        getDefault := None; getHidden := Some hidden_unless_region |});
    ("map.zoom", no_def);
    ("map.center_latitude", no_def);
    ("map.center_longitude", no_def);
    ("map.heat.radius",
     {| title := Some "Radius"; widget := Some "number";
        default_value := Some (VNum 30);
        getDefault := None; getHidden := Some hidden_unless_heat |});
    ("map.heat.blur",
     {| title := Some "Blur"; widget := Some "number";
        default_value := Some (VNum 60);
        getDefault := None; getHidden := Some hidden_unless_heat |});
    ("map.heat.min-opacity",
     {| title := Some "Min Opacity"; widget := Some "number";
        default_value := Some (VNum 0);
        getDefault := None; getHidden := Some hidden_unless_heat |});
    ("map.heat.max-zoom",
     {| title := Some "Max Zoom"; widget := Some "number";
        default_value := Some (VNum 1);
        getDefault := None; getHidden := Some hidden_unless_heat |}) ].

Definition settings : gmap string SettingDef := list_to_map settings_entries.

(** [Map.settings[key].getHidden(series, vizSettings)], when the entry
    exists and defines [getHidden]. *)
Definition hidden (key : string) (series : Series) (vizSettings : Settings)
  : option bool :=
  def ← settings !! key;
  h ← getHidden def;
  Some (h series vizSettings).

(** [Map.settings[key].getDefault(series, settings)], likewise. *)
Definition default_of (key : string) (series : Series) (vizSettings : Settings)
  : option (result exn string) :=
  def ← settings !! key;
  g ← getDefault def;
  Some (g series vizSettings).

End Schema.

(** [static checkRenderable([{ data: { cols, rows } }], settings)] *)
Definition checkRenderable (series : Series) (settings : Settings)
  : result exn unit :=
  match series with
  | [] => Raise TypeError
  | {| data := {| cols := _; rows := _ |} |} :: _ =>
    if PIN_MAP_TYPES_has settings.["map.type"] then
      if negb (truthy settings.["map.longitude_column"])
         || negb (truthy settings.["map.latitude_column"]) then
        Raise (ChartSettingsError
                 "Please select longitude and latitude columns in the chart settings."
                 "Data")
      else Ok tt
    else if strict_eq_string settings.["map.type"] "region" then
      if negb (truthy settings.["map.dimension"])
         || negb (truthy settings.["map.metric"]) then
        Raise (ChartSettingsError
                 "Please select region and metric columns in the chart settings."
                 "Data")
      else Ok tt
    else Ok tt
  end.

(** The props the class reads; [settings_of] is [props.settings] (the name
    [settings] is taken by the static schema above).  [render] hands the
    whole record on. *)
Record Props : Type := {
  series : Series;
  settings_of : Settings;
  width : Z;
  height : Z;
}.

Section Update.

(** [isSameSeries] of metabase/visualizations/lib/utils. *)
Variable isSameSeries : Series -> Series -> bool.

Definition shouldComponentUpdate (this_props nextProps : Props) : bool :=
  let sameSize := (width this_props =? width nextProps)%Z
                  && (height this_props =? height nextProps)%Z in
  let sameSeries := isSameSeries (series this_props) (series nextProps) in
  negb (sameSize && sameSeries).

End Update.

(** The two components [render] can instantiate. *)
Inductive component : Type := PinMap | ChoroplethMap.

(** [<C {...props} />] *)
Record element : Type := {
  elem_type : component;
  elem_props : Props;
}.

(** [render()]; [None] is the [undefined] of falling off the end. *)
Definition render (this_props : Props) : option element :=
  let type := (settings_of this_props).["map.type"] in
  if PIN_MAP_TYPES_has type then
    Some {| elem_type := PinMap; elem_props := this_props |}
  else if strict_eq_string type "region" then
    Some {| elem_type := ChoroplethMap; elem_props := this_props |}
  else None.

End Map.

(** ** Vocabulary of the statements *)

(** The setting value is one of the pin-map types. *)
Definition is_pin_map_type (v : value) : Prop :=
  v = VStr "pin" \/ v = VStr "heat" \/ v = VStr "grid".

(** A setting is absent: unset, or set to a falsy value. *)
Definition absent (v : value) : Prop := truthy v = false.

(** A setting is selected. *)
Definition selected (v : value) : Prop := truthy v = true.

Definition pin_columns_unselected (settings : Settings) : Prop :=
  is_pin_map_type settings.["map.type"]
  /\ (absent settings.["map.longitude_column"] \/ absent settings.["map.latitude_column"]).

Definition region_columns_unselected (settings : Settings) : Prop :=
  settings.["map.type"] = VStr "region"
  /\ (absent settings.["map.dimension"] \/ absent settings.["map.metric"]).

Definition longitude_latitude_error : exn :=
  ChartSettingsError
    "Please select longitude and latitude columns in the chart settings." "Data".

Definition region_metric_error : exn :=
  ChartSettingsError
    "Please select region and metric columns in the chart settings." "Data".

(** [c] is the column named by [v]: the first column of [cs] whose name is
    the string [v]. *)
Definition column_named (cs : list Column) (v : value) (c : Column) : Prop :=
  exists pre post,
    cs = (pre ++ c :: post)%list
    /\ v = VStr (name c)
    /\ forall c', c' ∈ pre -> v <> VStr (name c').

(** Both the latitude and the longitude column named in the settings exist
    and carry binning information. *)
Definition binned_coordinates (cs : list Column) (settings : Settings) : Prop :=
  exists lat lon,
    column_named cs settings.["map.latitude_column"] lat
    /\ column_named cs settings.["map.longitude_column"] lon
    /\ truthy (binning_info lat) = true
    /\ truthy (binning_info lon) = true.

(** The test of line 57 of Map.jsx, as a boolean. *)
Definition binned_test (cs : list Column) (settings : Settings) : bool :=
  match findWhere_name cs settings.["map.latitude_column"],
        findWhere_name cs settings.["map.longitude_column"] with
  | Some lat, Some lon => truthy (binning_info lat) && truthy (binning_info lon)
  | _, _ => false
  end.

(** ** LeafletHeatMap.jsx *)

Module LeafletHeatMap.

(** The object literal passed to [heatLayer.setOptions]. *)
Record HeatOptions : Type := {
  opt_max : value;
  opt_maxZoom : value;
  opt_minOpacity : value;
  opt_radius : value;
  opt_blur : value;
}.

(** The calls [componentDidUpdate] makes out of the class, with their
    arguments. *)
Inductive call : Type :=
| SuperComponentDidUpdate (prevProps prevState : value)
| SetOptions (options : HeatOptions)
| SetLatLngs (latlngs : value)
| ConsoleError (err : value)
| OnRenderError (arg : value).

Section Component.

(** Everything outside the class: the Leaflet map and its layers, the
    DOM, the host's error state. *)
Variable World : Type.

(** A call into foreign code changes the world and either returns
    ([None]) or throws a value. *)
Definition foreign : Type := World -> option value * World.

Record Props : Type := {
  points : value;
  max : value;
  settings : Settings;
  onRenderError : value -> foreign;
}.

(** [LeafletMap.prototype.componentDidUpdate], of ./LeafletMap.jsx. *)
Variable LeafletMap_componentDidUpdate : Props -> value -> value -> foreign.
(** [setOptions] and [setLatLngs] of the leaflet.heat layer. *)
Variable heatLayer_setOptions : HeatOptions -> foreign.
Variable heatLayer_setLatLngs : value -> foreign.
(** [console.error], which does not throw. *)
Variable console_error : value -> World -> World.

(** The world together with the log of calls made so far. *)
Definition state : Type := World * list call.

(** Computations that may throw an [E]. *)
Definition M (E A : Type) : Type := state -> result E A * state.

Definition ret {E A} (a : A) : M E A := fun st => (Ok a, st).

Definition raise {E A} (e : E) : M E A := fun st => (Raise e, st).

Definition bind {E A B} (m : M E A) (k : A -> M E B) : M E B :=
  fun st => match m st with
            | (Ok a, st') => k a st'
            | (Raise e, st') => (Raise e, st')
            end.

(** [try { body } catch (err) { handler }] *)
Definition try_catch {E E' A} (body : M E A) (handler : E -> M E' A) : M E' A :=
  fun st => match body st with
            | (Ok a, st') => (Ok a, st')
            | (Raise e, st') => handler e st'
            end.

(** Outside a [try], a value thrown by foreign code propagates. *)
Definition propagate {A} (m : M value A) : M exn A :=
  try_catch m (fun v => raise (Thrown v)).

(** Make the foreign call [f], logged as [c]. *)
Definition invoke (c : call) (f : foreign) : M value unit :=
  fun '(w, log) =>
    match f w with
    | (None, w') => (Ok tt, (w', log ++ [c])%list)
    | (Some v, w') => (Raise v, (w', log ++ [c])%list)
    end.

Definition log_error (err : value) : M exn unit :=
  fun '(w, log) => (Ok tt, (console_error err w, log ++ [ConsoleError err])%list).

(** [err.message] *)
Definition read_message (err : value) : M exn value :=
  match err with
  | VUndefined | VNull => raise TypeError
  | VObj fields => ret (assoc "message" fields)
  | VBool _ | VNum _ | VNaN | VStr _ => ret VUndefined
  end.

Local Notation "m1 ;; m2" := (bind m1 (fun _ => m2))
  (at level 100, m2 at level 200, right associativity).
Local Notation "'let*' x := m1 'in' m2" := (bind m1 (fun x => m2))
  (at level 10, x name, m1 at level 100, m2 at level 200).

Definition componentDidUpdate (this_props : Props) (prevProps prevState : value)
  : M exn unit :=
  propagate (invoke (SuperComponentDidUpdate prevProps prevState)
                    (LeafletMap_componentDidUpdate this_props prevProps prevState)) ;;
  try_catch
    (let options :=
       {| opt_max := max this_props;
          opt_maxZoom := (settings this_props).["map.heat.max-zoom"];
          opt_minOpacity := (settings this_props).["map.heat.min-opacity"];
          opt_radius := (settings this_props).["map.heat.radius"];
          opt_blur := (settings this_props).["map.heat.blur"] |} in
     invoke (SetOptions options) (heatLayer_setOptions options) ;;
     invoke (SetLatLngs (points this_props)) (heatLayer_setLatLngs (points this_props)))
    (fun err =>
       log_error err ;;
       let* message := read_message err in
       propagate (invoke (OnRenderError (or_else message err))
                         (onRenderError this_props (or_else message err)))).

End Component.

Arguments points {World} _.
Arguments max {World} _.
Arguments settings {World} _.
Arguments onRenderError {World} _ _ _.

End LeafletHeatMap.

Import LeafletHeatMap.

(** The options the update is to forward: max from the props, the other
    four from the "map.heat.*" settings. *)
Definition forwarded_options {World} (p : Props World) : HeatOptions :=
  {| opt_max := max p;
     opt_maxZoom := (settings p).["map.heat.max-zoom"];
     opt_minOpacity := (settings p).["map.heat.min-opacity"];
     opt_radius := (settings p).["map.heat.radius"];
     opt_blur := (settings p).["map.heat.blur"] |}.

(** The exception's message, or the exception itself when it has none. *)
Definition message_or_self (e : value) : value :=
  match e with
  | VObj fields => if truthy (assoc "message" fields) then assoc "message" fields else e
  | _ => e
  end.

(** How a foreign call's outcome shows in [componentDidUpdate]'s result. *)
Definition completion (thrown : option value) : result exn unit :=
  match thrown with
  | None => Ok tt
  | Some v => Raise (Thrown v)
  end.

(** *** A concrete world: a heat layer that stores what it is given *)

Module Leaflet.

Record world : Type := {
  layer_options : option HeatOptions;
  layer_latlngs : option value;
  console : list value;
  reported : list value;
}.

Definition initial : world :=
  {| layer_options := None; layer_latlngs := None; console := []; reported := [] |}.

Definition super_ok (p : Props world) (prevProps prevState : value) : foreign world :=
  fun w => (None, w).

Definition setOptions_ok (o : HeatOptions) : foreign world :=
  fun w => (None, {| layer_options := Some o; layer_latlngs := layer_latlngs w;
                     console := console w; reported := reported w |}).

Definition setOptions_throwing (e : value) (o : HeatOptions) : foreign world :=
  fun w => (Some e, w).

Definition setLatLngs_ok (x : value) : foreign world :=
  fun w => (None, {| layer_options := layer_options w; layer_latlngs := Some x;
                     console := console w; reported := reported w |}).

Definition console_error (e : value) (w : world) : world :=
  {| layer_options := layer_options w; layer_latlngs := layer_latlngs w;
     console := (console w ++ [e])%list; reported := reported w |}.

Definition report (arg : value) : foreign world :=
  fun w => (None, {| layer_options := layer_options w; layer_latlngs := layer_latlngs w;
                     console := console w; reported := (reported w ++ [arg])%list |}).

Definition sample_points : value :=
  VObj [("0", VObj [("0", VNum 37); ("1", VNum (-122)); ("2", VNum 5)])].

Definition sample_props : Props world :=
  {| points := sample_points;
     max := VNum 5;
     settings := {[ "map.heat.radius" := VNum 30; "map.heat.blur" := VNum 60;
                    "map.heat.min-opacity" := VNum 0; "map.heat.max-zoom" := VNum 1 ]};
     onRenderError := report |}.

Definition sample_options : HeatOptions :=
  {| opt_max := VNum 5; opt_maxZoom := VNum 1; opt_minOpacity := VNum 0;
     opt_radius := VNum 30; opt_blur := VNum 60 |}.

Definition range_error : value :=
  VObj [("name", VStr "RangeError"); ("message", VStr "Invalid radius")].

End Leaflet.

(** A call that reports an error, as opposed to one into the heat layer. *)
Definition is_report (c : call) : Prop :=
  match c with
  | ConsoleError _ | OnRenderError _ => True
  | _ => False
  end.

(** The [try] block throws [e], leaving the world [w1] and having made the
    calls [made], when started in [w0]. *)
Definition try_block_throws {World}
           (setOptions : HeatOptions -> foreign World)
           (setLatLngs : value -> foreign World)
           (p : Props World) (w0 : World)
           (e : value) (w1 : World) (made : list call) : Prop :=
  (setOptions (forwarded_options p) w0 = (Some e, w1)
   /\ made = [SetOptions (forwarded_options p)])
  \/ (exists w', setOptions (forwarded_options p) w0 = (None, w')
                 /\ setLatLngs (points p) w' = (Some e, w1)
                 /\ made = [SetOptions (forwarded_options p); SetLatLngs (points p)]).

(** ** Sample inputs *)

Definition latitude_col : Column :=
  {| name := "lat"; base_type := VStr "type/Float";
     special_type := VStr "type/Latitude"; binning_info := VUndefined |}.

Definition longitude_col : Column :=
  {| name := "lon"; base_type := VStr "type/Float";
     special_type := VStr "type/Longitude"; binning_info := VUndefined |}.

Definition binned (c : Column) : Column :=
  {| name := name c; base_type := base_type c; special_type := special_type c;
     binning_info := VObj [("binning_strategy", VStr "bin-width"); ("bin_width", VNum 10)] |}.

Definition table_series (cs : list Column) (rs : list (list value)) : Series :=
  [ {| card := {| display := VStr "map"; visualization_settings := ∅ |};
       data := {| cols := cs; rows := rs |} |} ].

(** A stand-in for [hasLatitudeAndLongitudeColumns] on the sample tables:
    some column is a latitude and some column is a longitude. *)
Definition has_coordinates (cs : list Column) : bool :=
  existsb (fun c => strict_eq_string (special_type c) "type/Latitude") cs
  && existsb (fun c => strict_eq_string (special_type c) "type/Longitude") cs.

Definition two_rows : list (list value) := [[VNum 1; VNum 2]; [VNum 3; VNum 4]].

Definition heat_settings : Settings :=
  {[ "map.type" := VStr "heat";
     "map.latitude_column" := VStr "lat";
     "map.longitude_column" := VStr "lon" ]}.

Definition binned_settings : Settings :=
  {[ "map.latitude_column" := VStr "lat"; "map.longitude_column" := VStr "lon" ]}.

Definition region_settings : Settings := {[ "map.type" := VStr "region" ]}.

Definition no_settings : Settings := ∅.



Definition with_type (ty : value) : Map.Props :=
  {| Map.series := table_series [latitude_col; longitude_col] two_rows;
     Map.settings_of := {[ "map.type" := ty ]};
     Map.width := 4; Map.height := 4 |}.

Definition props_before : Map.Props := with_type (VStr "pin").
Definition props_after : Map.Props := with_type (VStr "heat").


(** ** The other statics of Map.jsx *)

(** [static aliases = ["state", "country", "pin_map"]] *)
Definition aliases : list string := ["state"; "country"; "pin_map"].

(** [props.options] of "map.type", as (name, value) pairs. *)
Definition map_type_options : list (string * string) :=
  [ ("Region map", "region"); ("Pin map", "pin");
    ("Heat map", "heat"); ("Grid map", "grid") ].

(** [props.options] of "map.pin_type". *)
Definition map_pin_type_options : list (string * string) :=
  [ ("Tiles", "tiles"); ("Markers", "markers");
    ("Heat", "heat"); ("Grid", "grid") ].

(** The values a select widget offers. *)
Definition option_values (options : list (string * string)) : list string :=
  List.map snd options.

(** ** LeafletHeatMap.componentDidMount *)

Section Mount.

Context {World : Type}.

(** [LeafletMap.prototype.componentDidMount], of ./LeafletMap.jsx. *)
Variable LeafletMap_componentDidMount : Props World -> foreign World.
(** [L.layerGroup(layers).addTo(this.map)], stored as [this.pinMarkerLayer]. *)
Variable layerGroup_addTo : value -> foreign World.
(** [L.heatLayer(latlngs, options).addTo(this.map)], stored as
    [this.heatLayer]. *)
Variable heatLayer_addTo : value -> value -> foreign World.
Variable LeafletMap_componentDidUpdate : Props World -> value -> value -> foreign World.
Variable heatLayer_setOptions : HeatOptions -> foreign World.
Variable heatLayer_setLatLngs : value -> foreign World.
Variable console_error : value -> World -> World.

(** A foreign call made outside any [try]: what it throws propagates.  The
    log keeps the calls of [componentDidUpdate] only. *)
Definition perform (f : foreign World) : M World exn unit :=
  fun '(w, log) =>
    match f w with
    | (None, w') => (Ok tt, (w', log))
    | (Some v, w') => (Raise (Thrown v), (w', log))
    end.

Definition componentDidMount (this_props : Props World) : M World exn unit :=
  bind World (perform (LeafletMap_componentDidMount this_props)) (fun _ =>
  bind World (perform (layerGroup_addTo (VObj []))) (fun _ =>
  bind World (perform (heatLayer_addTo (VObj []) (VObj [("radius", VNum 25)]))) (fun _ =>
  componentDidUpdate World LeafletMap_componentDidUpdate heatLayer_setOptions
    heatLayer_setLatLngs console_error this_props (VObj []) (VObj [])))).

End Mount.

(** *** Mounting in the concrete world *)

Module LeafletMount.

Definition returns (w : Leaflet.world) : option value * Leaflet.world := (None, w).

Definition throws (e : value) (w : Leaflet.world) : option value * Leaflet.world :=
  (Some e, w).

Definition super_throwing (e : value) (p : Props Leaflet.world)
           (prevProps prevState : value) : foreign Leaflet.world :=
  throws e.

Definition superMount_ok (p : Props Leaflet.world) : foreign Leaflet.world := returns.

Definition layerGroup_ok (layers : value) : foreign Leaflet.world := returns.

(** A heat layer created with these points and no options yet applied. *)
Definition heatLayer_ok (latlngs options : value) : foreign Leaflet.world :=
  fun w => (None, {| Leaflet.layer_options := None;
                     Leaflet.layer_latlngs := Some latlngs;
                     Leaflet.console := Leaflet.console w;
                     Leaflet.reported := Leaflet.reported w |}).

Definition heatLayer_throwing (e : value) (latlngs options : value)
  : foreign Leaflet.world :=
  throws e.

Definition no_map_error : value :=
  VObj [("name", VStr "TypeError");
        ("message", VStr "Cannot read property 'addLayer' of undefined")].

End LeafletMount.

(** * Properties *)

(** ** Basic facts *)

Lemma strict_eq_string_spec v s : strict_eq_string v s = true <-> v = VStr s.
Proof.
  destruct v; simpl; try (split; [discriminate | intros [=]]).
  rewrite String.eqb_eq. split; [intros -> | intros [=]]; done.
Qed.

Lemma strict_eq_string_false v s : strict_eq_string v s = false <-> v <> VStr s.
Proof.
  rewrite <- strict_eq_string_spec. destruct (strict_eq_string v s); split; congruence.
Qed.



Lemma PIN_MAP_TYPES_has_spec v :
  Map.PIN_MAP_TYPES_has v = true <-> is_pin_map_type v.
Proof.
  unfold is_pin_map_type.
  destruct v as [| | b | n | | s | fs]; simpl;
    try (split; [discriminate | intros [H | [H | H]]; discriminate H]).
  rewrite bool_decide_eq_true. unfold Map.PIN_MAP_TYPES.
  rewrite !elem_of_union, !elem_of_singleton.
  split.
  - intros [[-> | ->] | ->]; auto.
  - intros [[= ->] | [[= ->] | [= ->]]]; auto.
Qed.

Lemma PIN_MAP_TYPES_has_false v :
  Map.PIN_MAP_TYPES_has v = false <-> ~ is_pin_map_type v.
Proof.
  rewrite <- PIN_MAP_TYPES_has_spec.
  destruct (Map.PIN_MAP_TYPES_has v); split; congruence.
Qed.

Lemma region_not_pin_map_type : ~ is_pin_map_type (VStr "region").
Proof. intros [H | [H | H]]; discriminate H. Qed.

Lemma findWhere_name_Some cs v c :
  findWhere_name cs v = Some c <-> column_named cs v c.
Proof.
  unfold findWhere_name, column_named. split.
  - induction cs as [| c0 cs IH]; simpl; [discriminate |].
    destruct (strict_eq_string v (name c0)) eqn:E.
    + intros [= ->]. exists [], cs. split; [reflexivity |].
      split; [by apply strict_eq_string_spec |].
      intros c' Hc'. by apply elem_of_nil in Hc'.
    + intros H. destruct (IH H) as (pre & post & -> & Hv & Hpre).
      exists (c0 :: pre), post. split; [reflexivity |]. split; [exact Hv |].
      intros c' [-> | Hin]%elem_of_cons; [by apply strict_eq_string_false | by apply Hpre].
  - intros (pre & post & -> & Hv & Hpre).
    induction pre as [| c0 pre IH]; simpl.
    + apply strict_eq_string_spec in Hv. by rewrite Hv.
    + assert (strict_eq_string v (name c0) = false) as ->.
      { apply strict_eq_string_false, Hpre. by left. }
      apply IH. intros c' Hc'. apply Hpre. by right.
Qed.

Lemma findWhere_name_None cs v :
  findWhere_name cs v = None <-> forall c, c ∈ cs -> v <> VStr (name c).
Proof.
  unfold findWhere_name. split.
  - intros H c Hc%list_elem_of_In.
    apply strict_eq_string_false. exact (find_none _ _ H c Hc).
  - intros H. destruct (find _ cs) as [c |] eqn:E; [| reflexivity].
    apply find_some in E as [Hin E%strict_eq_string_spec].
    apply list_elem_of_In in Hin. by destruct (H c Hin).
Qed.

Lemma column_named_unique cs v c c' :
  column_named cs v c -> column_named cs v c' -> c = c'.
Proof. rewrite <- !findWhere_name_Some. congruence. Qed.

Lemma binned_test_spec cs settings :
  binned_test cs settings = true <-> binned_coordinates cs settings.
Proof.
  unfold binned_test, binned_coordinates. split.
  - destruct (findWhere_name cs _) as [lat |] eqn:Elat; [| discriminate].
    destruct (findWhere_name cs settings.["map.longitude_column"]) as [lon |] eqn:Elon;
      [| discriminate].
    intros [H1 H2]%andb_true_iff. exists lat, lon.
    by rewrite <- !findWhere_name_Some.
  - intros (lat & lon & Hlat & Hlon & H1 & H2).
    apply findWhere_name_Some in Hlat, Hlon. rewrite Hlat, Hlon, H1, H2. reflexivity.
Qed.

Lemma map_type_getDefault_unfold hasLL s0 rest settings :
  Map.map_type_getDefault hasLL (s0 :: rest) settings =
  if strict_eq_string (display (card s0)) "state"
     || strict_eq_string (display (card s0)) "country" then Ok "region"
  else if strict_eq_string (display (card s0)) "pin_map" then Ok "pin"
  else if hasLL (cols (data s0)) then
    if binned_test (cols (data s0)) settings then Ok "grid"
    else if truthy settings.["map.metric_column"] then Ok "heat"
    else Ok "pin"
  else Ok "region".
Proof.
  destruct s0 as [[d vs] [cs rs]]; simpl. unfold binned_test.
  destruct (_ || _); [reflexivity |].
  destruct (strict_eq_string d "pin_map"); [reflexivity |].
  destruct (hasLL cs); [| reflexivity].
  destruct (findWhere_name cs _) as [lat |]; [| reflexivity].
  destruct (findWhere_name cs _) as [lon |]; reflexivity.
Qed.

Section SchemaLookups.

Variable hasLL : list Column -> bool.

Lemma default_of_map_type series vs :
  Map.default_of hasLL "map.type" series vs
  = Some (Map.map_type_getDefault hasLL series vs).
Proof. reflexivity. Qed.

Lemma default_of_map_pin_type series vs :
  Map.default_of hasLL "map.pin_type" series vs
  = Some (Map.map_pin_type_getDefault series vs).
Proof. reflexivity. Qed.

Lemma hidden_pin_keys key series vs :
  key ∈ ["map.pin_type"; "map.latitude_column"; "map.longitude_column"] ->
  Map.hidden hasLL key series vs = Some (Map.hidden_unless_pin series vs).
Proof.
  rewrite !elem_of_cons, elem_of_nil. intros [-> | [-> | [-> | []]]]; reflexivity.
Qed.

Lemma hidden_region_keys key series vs :
  key ∈ ["map.region"; "map.metric"; "map.dimension"] ->
  Map.hidden hasLL key series vs = Some (Map.hidden_unless_region series vs).
Proof.
  rewrite !elem_of_cons, elem_of_nil. intros [-> | [-> | [-> | []]]]; reflexivity.
Qed.

Lemma hidden_heat_keys key series vs :
  key ∈ ["map.heat.radius"; "map.heat.blur"; "map.heat.min-opacity"; "map.heat.max-zoom"] ->
  Map.hidden hasLL key series vs = Some (Map.hidden_unless_heat series vs).
Proof.
  rewrite !elem_of_cons, elem_of_nil.
  intros [-> | [-> | [-> | [-> | []]]]]; reflexivity.
Qed.

End SchemaLookups.

(** ** Map.checkRenderable *)

Lemma checkRenderable_cons s0 rest settings :
  Map.checkRenderable (s0 :: rest) settings =
  if Map.PIN_MAP_TYPES_has settings.["map.type"] then
    if truthy settings.["map.longitude_column"] && truthy settings.["map.latitude_column"]
    then Ok tt else Raise longitude_latitude_error
  else if strict_eq_string settings.["map.type"] "region" then
    if truthy settings.["map.dimension"] && truthy settings.["map.metric"]
    then Ok tt else Raise region_metric_error
  else Ok tt.
Proof.
  destruct s0 as [c [cs rs]]; simpl.
  destruct (Map.PIN_MAP_TYPES_has _).
  - destruct (truthy settings.["map.longitude_column"]),
             (truthy settings.["map.latitude_column"]); reflexivity.
  - destruct (strict_eq_string _ "region"); [| reflexivity].
    destruct (truthy settings.["map.dimension"]), (truthy settings.["map.metric"]);
      reflexivity.
Qed.

Lemma checkRenderable_nil settings : Map.checkRenderable [] settings = Raise TypeError.
Proof. reflexivity. Qed.

Lemma pin_columns_unselected_test settings :
  pin_columns_unselected settings <->
  Map.PIN_MAP_TYPES_has settings.["map.type"] = true
  /\ truthy settings.["map.longitude_column"] && truthy settings.["map.latitude_column"] = false.
Proof.
  unfold pin_columns_unselected, absent.
  rewrite PIN_MAP_TYPES_has_spec, andb_false_iff. reflexivity.
Qed.

Lemma region_columns_unselected_test settings :
  region_columns_unselected settings <->
  strict_eq_string settings.["map.type"] "region" = true
  /\ truthy settings.["map.dimension"] && truthy settings.["map.metric"] = false.
Proof.
  unfold region_columns_unselected, absent.
  rewrite strict_eq_string_spec, andb_false_iff. reflexivity.
Qed.

Lemma region_test_not_pin v :
  strict_eq_string v "region" = true -> Map.PIN_MAP_TYPES_has v = false.
Proof.
  intros ->%strict_eq_string_spec. apply PIN_MAP_TYPES_has_false, region_not_pin_map_type.
Qed.

(** C1, as stated, fails on the empty series: the parameter pattern
    [[{ data: { cols, rows } }]] reads [series[0].data], so the call raises a
    TypeError although no required column is unselected (here the settings
    object is empty, so "map.type" is neither a pin type nor "region"), where
    the claim has it return normally. *)
Lemma checkRenderable_empty_series_counterexample :
  ~ pin_columns_unselected no_settings
  /\ ~ region_columns_unselected no_settings
  /\ Map.checkRenderable [] no_settings = Raise TypeError
  /\ Map.checkRenderable [] no_settings <> Ok tt.
Proof.
  split; [| split; [| split]].
  - intros [[H | [H | H]] _]; discriminate H.
  - intros [H _]; discriminate H.
  - reflexivity.
  - discriminate.
Qed.

(** C1 (amended): for every non-empty series and every settings object,
    checkRenderable throws a ChartSettingsError if and only if required
    columns are unselected: the longitude/latitude message when "map.type" is
    a pin type and the longitude or latitude column is absent, the
    region/metric message when "map.type" is "region" and the dimension or
    metric is absent; in every other case it returns normally. *)
Theorem checkRenderable_nonempty_series s0 rest settings :
  (pin_columns_unselected settings ->
     Map.checkRenderable (s0 :: rest) settings = Raise longitude_latitude_error)
  /\ (region_columns_unselected settings ->
     Map.checkRenderable (s0 :: rest) settings = Raise region_metric_error)
  /\ (~ pin_columns_unselected settings -> ~ region_columns_unselected settings ->
     Map.checkRenderable (s0 :: rest) settings = Ok tt)
  /\ ((exists message section,
         Map.checkRenderable (s0 :: rest) settings
         = Raise (ChartSettingsError message section))
      <-> pin_columns_unselected settings \/ region_columns_unselected settings).
Proof.
  rewrite checkRenderable_cons, pin_columns_unselected_test, region_columns_unselected_test.
  pose proof (region_test_not_pin settings.["map.type"]) as Hexcl.
  set (pin := Map.PIN_MAP_TYPES_has _) in *.
  set (region := strict_eq_string _ "region") in *.
  set (coords := truthy settings.["map.longitude_column"] && _).
  set (fields := truthy settings.["map.dimension"] && _).
  clearbody pin region coords fields.
  destruct pin, region, coords, fields; naive_solver.
Qed.

Lemma checkRenderable_nonempty_series_witness :
  Map.checkRenderable (table_series [latitude_col; longitude_col] two_rows)
    {[ "map.type" := VStr "pin"; "map.latitude_column" := VStr "lat" ]}
  = Raise longitude_latitude_error
  /\ Map.checkRenderable (table_series [latitude_col; longitude_col] two_rows)
       region_settings
     = Raise region_metric_error
  /\ Map.checkRenderable (table_series [latitude_col; longitude_col] two_rows)
       heat_settings
     = Ok tt.
Proof.
  unfold table_series.
  split; [| split];
    (lazymatch goal with
     | |- Map.checkRenderable (?s0 :: ?rest) ?settings = _ =>
       destruct (checkRenderable_nonempty_series s0 rest settings)
         as (Hpin & Hregion & Hother & _)
     end).
  - apply Hpin. split; [left; reflexivity | left; reflexivity].
  - apply Hregion. split; [reflexivity | left; reflexivity].
  - apply Hother.
    + intros [_ [H | H]]; discriminate H.
    + intros [H _]; discriminate H.
Defined.

(** C10, as stated, fails on the empty series: with "map.type" = "heat" and
    both coordinate columns selected (and no metric column), the call on [[]]
    raises a TypeError instead of returning normally. *)
Lemma checkRenderable_heat_empty_series_counterexample :
  heat_settings.["map.type"] = VStr "heat"
  /\ selected heat_settings.["map.latitude_column"]
  /\ selected heat_settings.["map.longitude_column"]
  /\ absent heat_settings.["map.metric_column"]
  /\ Map.checkRenderable [] heat_settings = Raise TypeError.
Proof. repeat split; reflexivity. Qed.

(** C10 (amended): for every non-empty series, checkRenderable returns
    normally when "map.type" is "heat" or "grid" and the latitude and
    longitude columns are selected, whatever "map.metric_column" is, and also
    when "map.type" is outside {"pin", "heat", "grid", "region"}, whatever
    column settings are missing. *)
Theorem checkRenderable_never_requires_metric_column s0 rest settings :
  ((settings.["map.type"] = VStr "heat" \/ settings.["map.type"] = VStr "grid")
   /\ selected settings.["map.latitude_column"]
   /\ selected settings.["map.longitude_column"])
  \/ (~ is_pin_map_type settings.["map.type"] /\ settings.["map.type"] <> VStr "region") ->
  Map.checkRenderable (s0 :: rest) settings = Ok tt.
Proof.
  rewrite checkRenderable_cons. unfold selected.
  intros [(Hty & -> & ->) | [Hpin Hregion]].
  - assert (Map.PIN_MAP_TYPES_has settings.["map.type"] = true) as ->; [| reflexivity].
    apply PIN_MAP_TYPES_has_spec. unfold is_pin_map_type. tauto.
  - apply PIN_MAP_TYPES_has_false in Hpin as ->.
    apply strict_eq_string_false in Hregion as ->. reflexivity.
Qed.

Lemma checkRenderable_never_requires_metric_column_witness :
  absent heat_settings.["map.metric_column"]
  /\ Map.checkRenderable (table_series [latitude_col; longitude_col] two_rows) heat_settings
     = Ok tt.
Proof.
  split; [reflexivity |].
  apply (checkRenderable_never_requires_metric_column _ [] heat_settings).
  left. split; [left; reflexivity | split; reflexivity].
Defined.

(** ** The default of "map.type" *)

(** C2, as stated, fails on the empty series: the parameter pattern
    [[{ card, data: { cols } }]] reads [series[0]], so no default is chosen
    and a TypeError is raised. *)
Lemma map_type_default_empty_series_counterexample :
  exists (series : Series) (settings : Settings),
    series = [] /\ settings = no_settings
    /\ forall hasLL,
         Map.default_of hasLL "map.type" series settings = Some (Raise TypeError).
Proof. exists [], no_settings. repeat split. Qed.

(** C2 (amended): for every non-empty series and every settings object the
    default of "map.type" is "region" when card.display is "state" or
    "country", "pin" when it is "pin_map"; otherwise, when the columns have
    latitude and longitude, "grid" if the columns named by
    "map.latitude_column" and "map.longitude_column" both exist and carry
    binning_info, else "heat" if "map.metric_column" is set, else "pin"; and
    "region" when the columns lack latitude/longitude. *)
Theorem map_type_default_nonempty_series hasLL s0 rest settings :
  (display (card s0) = VStr "state" \/ display (card s0) = VStr "country" ->
     Map.default_of hasLL "map.type" (s0 :: rest) settings = Some (Ok "region"))
  /\ (display (card s0) = VStr "pin_map" ->
     Map.default_of hasLL "map.type" (s0 :: rest) settings = Some (Ok "pin"))
  /\ (display (card s0) <> VStr "state" ->
      display (card s0) <> VStr "country" ->
      display (card s0) <> VStr "pin_map" ->
      (hasLL (cols (data s0)) = true ->
         (binned_coordinates (cols (data s0)) settings ->
            Map.default_of hasLL "map.type" (s0 :: rest) settings = Some (Ok "grid"))
         /\ (~ binned_coordinates (cols (data s0)) settings ->
             selected settings.["map.metric_column"] ->
            Map.default_of hasLL "map.type" (s0 :: rest) settings = Some (Ok "heat"))
         /\ (~ binned_coordinates (cols (data s0)) settings ->
             absent settings.["map.metric_column"] ->
            Map.default_of hasLL "map.type" (s0 :: rest) settings = Some (Ok "pin")))
      /\ (hasLL (cols (data s0)) = false ->
            Map.default_of hasLL "map.type" (s0 :: rest) settings = Some (Ok "region"))).
Proof.
  rewrite default_of_map_type, map_type_getDefault_unfold.
  rewrite <- binned_test_spec. unfold selected, absent.
  split; [| split].
  - intros [-> | ->]; reflexivity.
  - intros ->; reflexivity.
  - intros H1%strict_eq_string_false H2%strict_eq_string_false H3%strict_eq_string_false.
    rewrite H1, H2, H3. simpl. split.
    + intros ->. split; [| split].
      * intros ->. reflexivity.
      * intros Hb%not_true_is_false ->. rewrite Hb. reflexivity.
      * intros Hb%not_true_is_false ->. rewrite Hb. reflexivity.
    + intros ->. reflexivity.
Qed.

Lemma map_type_default_nonempty_series_witness :
  Map.default_of has_coordinates "map.type"
    (table_series [binned latitude_col; binned longitude_col] two_rows) binned_settings
  = Some (Ok "grid")
  /\ Map.default_of has_coordinates "map.type"
       (table_series [latitude_col; binned longitude_col] two_rows)
       (<["map.metric_column" := VStr "count"]> binned_settings)
     = Some (Ok "heat")
  /\ Map.default_of has_coordinates "map.type"
       (table_series [latitude_col; longitude_col] two_rows) no_settings
     = Some (Ok "pin")
  /\ Map.default_of has_coordinates "map.type"
       (table_series [latitude_col] two_rows) binned_settings
     = Some (Ok "region").
Proof.
  unfold table_series.
  split; [| split; [| split]];
    (lazymatch goal with
     | |- Map.default_of _ _ (?s0 :: ?rest) ?settings = _ =>
       destruct (map_type_default_nonempty_series has_coordinates s0 rest settings)
         as (_ & _ & H);
       destruct H as [Hcoords Hnone]; [discriminate | discriminate | discriminate |]
     end).
  - apply Hcoords; [reflexivity |]. apply binned_test_spec. reflexivity.
  - apply Hcoords; [reflexivity | | reflexivity].
    rewrite <- binned_test_spec. discriminate.
  - apply Hcoords; [reflexivity | | reflexivity].
    rewrite <- binned_test_spec. discriminate.
  - apply Hnone. reflexivity.
Defined.

(** ** The default of "map.pin_type" *)

(** C6, as stated, fails on the empty series when "map.type" is neither
    "heat" nor "grid": [series[0].data] raises a TypeError, so the default is
    neither "tiles" nor "markers". *)
Lemma map_pin_type_default_empty_series_counterexample :
  no_settings.["map.type"] <> VStr "heat"
  /\ no_settings.["map.type"] <> VStr "grid"
  /\ Map.map_pin_type_getDefault [] no_settings = Raise TypeError
  /\ Map.map_pin_type_getDefault [] no_settings <> Ok "tiles"
  /\ Map.map_pin_type_getDefault [] no_settings <> Ok "markers".
Proof. repeat split; discriminate. Qed.

(** C6 (amended): for every series and settings object the default of
    "map.pin_type" is "heat" when "map.type" is "heat"; otherwise "grid" when
    "map.type" is "grid"; otherwise, for a non-empty series, "tiles" when the
    first series has at least 1000 data rows and "markers" when it has
    fewer. *)
Theorem map_pin_type_default hasLL series vizSettings :
  (vizSettings.["map.type"] = VStr "heat" ->
     Map.default_of hasLL "map.pin_type" series vizSettings = Some (Ok "heat"))
  /\ (vizSettings.["map.type"] = VStr "grid" ->
     Map.default_of hasLL "map.pin_type" series vizSettings = Some (Ok "grid"))
  /\ (vizSettings.["map.type"] <> VStr "heat" ->
      vizSettings.["map.type"] <> VStr "grid" ->
      forall s0 rest, series = s0 :: rest ->
        (1000 <= length (rows (data s0)) ->
           Map.default_of hasLL "map.pin_type" series vizSettings = Some (Ok "tiles"))
        /\ (length (rows (data s0)) < 1000 ->
           Map.default_of hasLL "map.pin_type" series vizSettings = Some (Ok "markers"))).
Proof.
  rewrite default_of_map_pin_type. unfold Map.map_pin_type_getDefault.
  split; [| split].
  - intros ->. reflexivity.
  - intros ->. reflexivity.
  - intros H1%strict_eq_string_false H2%strict_eq_string_false s0 rest ->.
    rewrite H1, H2. split; intros Hlen.
    + assert ((1000 <=? Z.of_nat (length (rows (data s0))))%Z = true) as ->;
        [apply Z.leb_le; lia | reflexivity].
    + assert ((1000 <=? Z.of_nat (length (rows (data s0))))%Z = false) as ->;
        [apply Z.leb_gt; lia | reflexivity].
Qed.

Lemma map_pin_type_default_witness :
  Map.default_of has_coordinates "map.pin_type"
    (table_series [latitude_col; longitude_col] two_rows) no_settings
  = Some (Ok "markers")
  /\ Map.default_of has_coordinates "map.pin_type"
       (table_series [latitude_col; longitude_col] (replicate 999 [VNum 0; VNum 0]))
       no_settings
     = Some (Ok "markers")
  /\ Map.default_of has_coordinates "map.pin_type"
       (table_series [latitude_col; longitude_col] (replicate 1000 [VNum 0; VNum 0]))
       no_settings
     = Some (Ok "tiles")
  /\ Map.default_of has_coordinates "map.pin_type"
       (table_series [latitude_col; longitude_col] (replicate 1000 [VNum 0; VNum 0]))
       heat_settings
     = Some (Ok "heat").
Proof.
  unfold table_series.
  split; [| split; [| split]];
    (lazymatch goal with
     | |- Map.default_of _ _ ?series ?settings = _ =>
       destruct (map_pin_type_default has_coordinates series settings)
         as (Hheat & _ & Hrows)
     end).
  - destruct (Hrows ltac:(discriminate) ltac:(discriminate) _ _ eq_refl) as [_ H].
    apply H. simpl. lia.
  - destruct (Hrows ltac:(discriminate) ltac:(discriminate) _ _ eq_refl) as [_ H].
    apply H. cbn [rows data]. rewrite length_replicate. lia.
  - destruct (Hrows ltac:(discriminate) ltac:(discriminate) _ _ eq_refl) as [H _].
    apply H. cbn [rows data]. rewrite length_replicate. lia.
  - apply Hheat. reflexivity.
Defined.

(** ** Visibility rules *)

(** C7: for every series and settings object, "map.pin_type",
    "map.latitude_column" and "map.longitude_column" are hidden exactly when
    "map.type" is not one of "pin", "heat", "grid"; "map.region", "map.metric"
    and "map.dimension" exactly when "map.type" is not "region"; and the four
    "map.heat.*" settings exactly when "map.type" is not "heat". *)
Theorem settings_visibility_rules hasLL (series : Series) (vizSettings : Settings) :
  (forall key,
     key ∈ ["map.pin_type"; "map.latitude_column"; "map.longitude_column"] ->
     exists b, Map.hidden hasLL key series vizSettings = Some b
               /\ (b = true <-> ~ is_pin_map_type vizSettings.["map.type"]))
  /\ (forall key,
     key ∈ ["map.region"; "map.metric"; "map.dimension"] ->
     exists b, Map.hidden hasLL key series vizSettings = Some b
               /\ (b = true <-> vizSettings.["map.type"] <> VStr "region"))
  /\ (forall key,
     key ∈ ["map.heat.radius"; "map.heat.blur"; "map.heat.min-opacity"; "map.heat.max-zoom"] ->
     exists b, Map.hidden hasLL key series vizSettings = Some b
               /\ (b = true <-> vizSettings.["map.type"] <> VStr "heat")).
Proof.
  split; [| split]; intros key Hkey; eexists; (split; [eauto using
    hidden_pin_keys, hidden_region_keys, hidden_heat_keys |]).
  - unfold Map.hidden_unless_pin. rewrite negb_true_iff. apply PIN_MAP_TYPES_has_false.
  - unfold Map.hidden_unless_region. rewrite negb_true_iff. apply strict_eq_string_false.
  - unfold Map.hidden_unless_heat. rewrite negb_true_iff. apply strict_eq_string_false.
Qed.

(** ** Map.render *)


(** C9: when settings["map.type"] is neither a pin type nor "region",
    [render] returns no element. *)
Theorem render_unknown_type_renders_nothing (p : Map.Props) :
  ~ is_pin_map_type (Map.settings_of p).["map.type"] ->
  (Map.settings_of p).["map.type"] <> VStr "region" ->
  Map.render p = None.
Proof.
  intros Hpin%PIN_MAP_TYPES_has_false Hregion%strict_eq_string_false.
  unfold Map.render. rewrite Hpin, Hregion. reflexivity.
Qed.

Lemma render_unknown_type_renders_nothing_witness :
  Map.render (with_type VUndefined) = None
  /\ Map.render (with_type (VStr "scatter")) = None.
Proof.
  split; apply render_unknown_type_renders_nothing;
    solve [ intros [H | [H | H]]; discriminate H | discriminate ].
Defined.

(** ** Map.shouldComponentUpdate *)

(** [shouldComponentUpdate] reads width, height and series only. *)
Lemma shouldComponentUpdate_reads isSameSeries (cur next cur' next' : Map.Props) :
  Map.width cur = Map.width cur' -> Map.height cur = Map.height cur' ->
  Map.series cur = Map.series cur' ->
  Map.width next = Map.width next' -> Map.height next = Map.height next' ->
  Map.series next = Map.series next' ->
  Map.shouldComponentUpdate isSameSeries cur next
  = Map.shouldComponentUpdate isSameSeries cur' next'.
Proof. unfold Map.shouldComponentUpdate. by intros -> -> -> -> -> ->. Qed.

(** C4, as stated, fails when only the settings change: the two props below
    differ in settings["map.type"] ("pin" against "heat") and agree on width,
    height and series, and [shouldComponentUpdate] answers false for every
    [isSameSeries] that accepts the unchanged series. *)
Lemma shouldComponentUpdate_settings_change_counterexample :
  Map.settings_of props_before <> Map.settings_of props_after
  /\ Map.series props_before = Map.series props_after
  /\ forall isSameSeries,
       isSameSeries (Map.series props_before) (Map.series props_after) = true ->
       Map.shouldComponentUpdate isSameSeries props_before props_after = false.
Proof.
  split; [| split].
  - intros H. apply (f_equal (fun s : Settings => s.["map.type"])) in H. discriminate H.
  - reflexivity.
  - intros same H. unfold Map.shouldComponentUpdate. rewrite H. reflexivity.
Qed.

(** C4 (amended): [shouldComponentUpdate] returns true exactly when the
    width or the height of the next props differs from the current one or
    [isSameSeries] reports the two series as different; the settings prop is
    not compared. *)
Theorem shouldComponentUpdate_size_or_series isSameSeries :
  (forall cur next : Map.Props,
     Map.shouldComponentUpdate isSameSeries cur next = true
     <-> Map.width cur <> Map.width next
         \/ Map.height cur <> Map.height next
         \/ isSameSeries (Map.series cur) (Map.series next) = false)
  /\ (forall (cur next : Map.Props) (s s' : Settings),
     Map.shouldComponentUpdate isSameSeries
       {| Map.series := Map.series cur; Map.settings_of := s;
          Map.width := Map.width cur; Map.height := Map.height cur |}
       {| Map.series := Map.series next; Map.settings_of := s';
          Map.width := Map.width next; Map.height := Map.height next |}
     = Map.shouldComponentUpdate isSameSeries cur next).
Proof.
  split.
  - intros cur next. unfold Map.shouldComponentUpdate.
    rewrite negb_true_iff, !andb_false_iff, !Z.eqb_neq. tauto.
  - intros cur next s s'. by apply shouldComponentUpdate_reads.
Qed.

(** ** Render errors of the heat layer *)

Section HeatLayerUpdate.

Context {World : Type}.
Variable super : Props World -> value -> value -> foreign World.
Variable setOptions : HeatOptions -> foreign World.
Variable setLatLngs : value -> foreign World.
Variable console_error : value -> World -> World.

Local Abbreviation update :=
  (componentDidUpdate World super setOptions setLatLngs console_error).

Lemma read_message_non_nullish (e : value) st :
  nullish e = false ->
  exists m, read_message World e st = (Ok m, st) /\ or_else m e = message_or_self e.
Proof.
  unfold or_else.
  destruct e as [| | b | n | | s | fields]; simpl; try discriminate; intros _;
    try (by exists VUndefined).
  exists (assoc "message" fields). split; reflexivity.
Qed.

Lemma handler_non_nullish (p : Props World) (e : value) w log :
  nullish e = false ->
  bind World (log_error World console_error e)
    (fun _ => bind World (read_message World e)
       (fun message =>
          propagate World
            (invoke World (OnRenderError (or_else message e))
               (onRenderError p (or_else message e))))) (w, log)
  = (completion (onRenderError p (message_or_self e) (console_error e w)).1,
     ((onRenderError p (message_or_self e) (console_error e w)).2,
      (log ++ [ConsoleError e; OnRenderError (message_or_self e)])%list)).
Proof.
  intros Hn. unfold bind at 1. simpl.
  destruct (read_message_non_nullish e (console_error e w, (log ++ [ConsoleError e])%list) Hn)
    as (m & Hread & Hm).
  unfold bind. rewrite Hread, Hm.
  unfold propagate, try_catch, invoke, raise.
  destruct (onRenderError p _ _) as [[v |] w2]; simpl;
    rewrite <- app_assoc; reflexivity.
Qed.

Lemma update_after_super (p : Props World) prevProps prevState w log w0 :
  super p prevProps prevState w = (None, w0) ->
  update p prevProps prevState (w, log)
  = try_catch World
      (bind World
         (invoke World (SetOptions (forwarded_options p)) (setOptions (forwarded_options p)))
         (fun _ => invoke World (SetLatLngs (points p)) (setLatLngs (points p))))
      (fun err =>
         bind World (log_error World console_error err)
           (fun _ => bind World (read_message World err)
              (fun message =>
                 propagate World
                   (invoke World (OnRenderError (or_else message err))
                      (onRenderError p (or_else message err))))))
      (w0, (log ++ [SuperComponentDidUpdate prevProps prevState])%list).
Proof.
  intros Hsuper. unfold update, componentDidUpdate.
  unfold bind at 1, propagate at 1, try_catch at 1, invoke at 1.
  rewrite Hsuper. reflexivity.
Qed.

Lemma try_block_throws_run (p : Props World) w0 e w1 made log :
  try_block_throws setOptions setLatLngs p w0 e w1 made ->
  bind World
    (invoke World (SetOptions (forwarded_options p)) (setOptions (forwarded_options p)))
    (fun _ => invoke World (SetLatLngs (points p)) (setLatLngs (points p))) (w0, log)
  = (Raise e, (w1, (log ++ made)%list)).
Proof.
  unfold bind, invoke.
  intros [[H ->] | (w' & H1 & H2 & ->)].
  - rewrite H. reflexivity.
  - rewrite H1, H2. rewrite <- app_assoc. reflexivity.
Qed.

(** C5 (amended): when the inherited update has returned and [setOptions]
    or [setLatLngs] throws a value [e] other than null or undefined, the
    exception is caught: it is logged, [onRenderError] is called with the
    exception's message (or with the exception itself when it has none),
    and [componentDidUpdate] completes as that call does, so the exception
    of the [try] block does not escape. *)
Theorem componentDidUpdate_reports_render_error
        (p : Props World) prevProps prevState w log w0 e w1 made :
  super p prevProps prevState w = (None, w0) ->
  try_block_throws setOptions setLatLngs p w0 e w1 made ->
  nullish e = false ->
  update p prevProps prevState (w, log)
  = (completion (onRenderError p (message_or_self e) (console_error e w1)).1,
     ((onRenderError p (message_or_self e) (console_error e w1)).2,
      (log ++ [SuperComponentDidUpdate prevProps prevState] ++ made
           ++ [ConsoleError e; OnRenderError (message_or_self e)])%list)).
Proof.
  intros Hsuper Hthrow Hn.
  rewrite (update_after_super _ _ _ _ _ _ Hsuper).
  unfold try_catch. rewrite (try_block_throws_run _ _ _ _ _ _ Hthrow).
  rewrite (handler_non_nullish _ _ _ _ Hn).
  rewrite <- !app_assoc. reflexivity.
Qed.

End HeatLayerUpdate.

Lemma componentDidUpdate_reports_render_error_witness :
  componentDidUpdate Leaflet.world Leaflet.super_ok
    (Leaflet.setOptions_throwing Leaflet.range_error) Leaflet.setLatLngs_ok
    Leaflet.console_error Leaflet.sample_props (VObj []) (VObj []) (Leaflet.initial, [])
  = (Ok tt,
     ({| Leaflet.layer_options := None; Leaflet.layer_latlngs := None;
         Leaflet.console := [Leaflet.range_error];
         Leaflet.reported := [VStr "Invalid radius"] |},
      [SuperComponentDidUpdate (VObj []) (VObj []);
       SetOptions Leaflet.sample_options;
       ConsoleError Leaflet.range_error;
       OnRenderError (VStr "Invalid radius")])).
Proof.
  exact (componentDidUpdate_reports_render_error
           Leaflet.super_ok (Leaflet.setOptions_throwing Leaflet.range_error)
           Leaflet.setLatLngs_ok Leaflet.console_error
           Leaflet.sample_props (VObj []) (VObj []) Leaflet.initial [] Leaflet.initial
           Leaflet.range_error Leaflet.initial [SetOptions Leaflet.sample_options]
           eq_refl (or_introl (conj eq_refl eq_refl)) eq_refl).
Defined.

(** C5, as stated, fails when the library throws null (or undefined): the
    handler's [err.message] is itself a property read on null, so a TypeError
    leaves [componentDidUpdate] and [onRenderError] is never called. *)
Lemma componentDidUpdate_null_exception_counterexample :
  componentDidUpdate Leaflet.world Leaflet.super_ok
    (Leaflet.setOptions_throwing VNull) Leaflet.setLatLngs_ok
    Leaflet.console_error Leaflet.sample_props (VObj []) (VObj []) (Leaflet.initial, [])
  = (Raise TypeError,
     ({| Leaflet.layer_options := None; Leaflet.layer_latlngs := None;
         Leaflet.console := [VNull];
         Leaflet.reported := [] |},
      [SuperComponentDidUpdate (VObj []) (VObj []);
       SetOptions Leaflet.sample_options;
       ConsoleError VNull])).
Proof. reflexivity. Qed.

(** ** Forwarding props to the heat layer *)

(** C8, as stated, fails on an update in which [setOptions] throws: the
    handler reports the error and [setLatLngs] is never called, so the
    layer's points are not set to props.points. *)
Lemma componentDidUpdate_setOptions_throws_counterexample :
  componentDidUpdate Leaflet.world Leaflet.super_ok
    (Leaflet.setOptions_throwing Leaflet.range_error) Leaflet.setLatLngs_ok
    Leaflet.console_error Leaflet.sample_props (VObj []) (VObj []) (Leaflet.initial, [])
  = (Ok tt,
     ({| Leaflet.layer_options := None; Leaflet.layer_latlngs := None;
         Leaflet.console := [Leaflet.range_error];
         Leaflet.reported := [VStr "Invalid radius"] |},
      [SuperComponentDidUpdate (VObj []) (VObj []);
       SetOptions Leaflet.sample_options;
       ConsoleError Leaflet.range_error;
       OnRenderError (VStr "Invalid radius")]))
  /\ SetLatLngs (points Leaflet.sample_props)
     ∉ [SuperComponentDidUpdate (VObj []) (VObj []);
        SetOptions Leaflet.sample_options;
        ConsoleError Leaflet.range_error;
        OnRenderError (VStr "Invalid radius")].
Proof.
  split; [reflexivity |].
  rewrite !not_elem_of_cons. repeat split; try discriminate. apply not_elem_of_nil.
Qed.

Section HeatLayerForwarding.

Context {World : Type}.
Variable super : Props World -> value -> value -> foreign World.
Variable setOptions : HeatOptions -> foreign World.
Variable setLatLngs : value -> foreign World.
Variable console_error : value -> World -> World.

Local Abbreviation update :=
  (componentDidUpdate World super setOptions setLatLngs console_error).

Lemma handler_calls (p : Props World) (e : value) w log :
  exists r w' made,
    bind World (log_error World console_error e)
      (fun _ => bind World (read_message World e)
         (fun message =>
            propagate World
              (invoke World (OnRenderError (or_else message e))
                 (onRenderError p (or_else message e))))) (w, log)
    = (r, (w', (log ++ made)%list))
    /\ Forall is_report made.
Proof.
  destruct (nullish e) eqn:Hn.
  - exists (Raise TypeError), (console_error e w), [ConsoleError e].
    split; [| by repeat constructor].
    destruct e; try discriminate Hn; reflexivity.
  - rewrite (handler_non_nullish console_error p e w log Hn).
    eexists _, _, _. split; [reflexivity |]. by repeat constructor.
Qed.

(** C8 (amended): on every update in which the inherited
    [componentDidUpdate] returns normally, [setOptions] is called, once, with
    exactly max = props.max and maxZoom, minOpacity, radius and blur taken
    from the "map.heat.*" settings; when that call returns normally,
    [setLatLngs] is called with exactly props.points; and when that returns
    too, the update completes normally with no further call.  Whatever
    follows an exception is error reporting only. *)
Theorem componentDidUpdate_forwards_props
        (p : Props World) prevProps prevState w log w0 :
  super p prevProps prevState w = (None, w0) ->
  exists r w' rest,
    update p prevProps prevState (w, log)
    = (r, (w', (log ++ [SuperComponentDidUpdate prevProps prevState;
                        SetOptions {| opt_max := max p;
                                      opt_maxZoom := (settings p).["map.heat.max-zoom"];
                                      opt_minOpacity := (settings p).["map.heat.min-opacity"];
                                      opt_radius := (settings p).["map.heat.radius"];
                                      opt_blur := (settings p).["map.heat.blur"] |}]
                     ++ rest)%list))
    /\ (forall w1,
          setOptions (forwarded_options p) w0 = (None, w1) ->
          exists rest',
            rest = SetLatLngs (points p) :: rest'
            /\ Forall is_report rest'
            /\ forall w2, setLatLngs (points p) w1 = (None, w2) ->
                          r = Ok tt /\ w' = w2 /\ rest' = [])
    /\ (forall e w1,
          setOptions (forwarded_options p) w0 = (Some e, w1) -> Forall is_report rest).
Proof.
  intros Hsuper. rewrite (update_after_super _ _ _ _ _ _ _ _ _ _ Hsuper).
  fold (forwarded_options p).
  unfold try_catch, bind at 1, invoke at 1.
  destruct (setOptions (forwarded_options p) w0) as [[e |] w1] eqn:Hopt.
  - destruct (handler_calls p e w1
                ((log ++ [SuperComponentDidUpdate prevProps prevState])
                   ++ [SetOptions (forwarded_options p)])%list)
      as (r & w' & made & Hrun & Hmade).
    exists r, w', made. rewrite Hrun. split; [| split].
    + by rewrite <- !app_assoc.
    + intros w2 [=].
    + intros e' w2 _. exact Hmade.
  - unfold invoke at 1.
    destruct (setLatLngs (points p) w1) as [[e |] w2] eqn:Hpts.
    + destruct (handler_calls p e w2
                  (((log ++ [SuperComponentDidUpdate prevProps prevState])
                      ++ [SetOptions (forwarded_options p)])
                     ++ [SetLatLngs (points p)])%list)
        as (r & w' & made & Hrun & Hmade).
      exists r, w', (SetLatLngs (points p) :: made). rewrite Hrun. split; [| split].
      * by rewrite <- !app_assoc.
      * intros w1' [= <-]. exists made. split; [reflexivity |].
        split; [exact Hmade |]. intros w2' Hw. congruence.
      * intros e' w1' [=].
    + exists (Ok tt), w2, [SetLatLngs (points p)]. split; [| split].
      * by rewrite <- !app_assoc.
      * intros w1' [= <-]. exists []. split; [reflexivity |].
        split; [constructor |]. intros w2' Hw. rewrite Hpts in Hw.
        injection Hw as <-. auto.
      * intros e' w1' [=].
Qed.

End HeatLayerForwarding.

Lemma componentDidUpdate_forwards_props_witness :
  exists r w' rest,
    componentDidUpdate Leaflet.world Leaflet.super_ok Leaflet.setOptions_ok
      Leaflet.setLatLngs_ok Leaflet.console_error Leaflet.sample_props
      (VObj []) (VObj []) (Leaflet.initial, [])
    = (r, (w', ([] ++ [SuperComponentDidUpdate (VObj []) (VObj []);
                       SetOptions Leaflet.sample_options] ++ rest)%list))
    /\ r = Ok tt
    /\ Leaflet.layer_options w' = Some Leaflet.sample_options
    /\ Leaflet.layer_latlngs w' = Some (points Leaflet.sample_props)
    /\ rest = [SetLatLngs (points Leaflet.sample_props)].
Proof.
  destruct (componentDidUpdate_forwards_props
              Leaflet.super_ok Leaflet.setOptions_ok Leaflet.setLatLngs_ok
              Leaflet.console_error Leaflet.sample_props (VObj []) (VObj [])
              Leaflet.initial [] Leaflet.initial eq_refl)
    as (r & w' & rest & Hrun & Hok & _).
  destruct (Hok _ eq_refl) as (rest' & -> & _ & Hdone).
  destruct (Hdone _ eq_refl) as (-> & -> & ->).
  eexists _, _, _. split; [exact Hrun |]. repeat split; reflexivity.
Defined.

(** * Further properties of Map.jsx *)

Section SchemaFacts.

Variable hasLL : list Column -> bool.

Lemma hidden_metric_column series vs :
  Map.hidden hasLL "map.metric_column" series vs
  = Some (Map.metric_column_getHidden series vs).
Proof. reflexivity. Qed.

Lemma default_of_map_region series vs :
  Map.default_of hasLL "map.region" series vs
  = Some (Map.map_region_getDefault series vs).
Proof. reflexivity. Qed.

End SchemaFacts.

Lemma get_insert_eq (o : Settings) k v : (<[k := v]> o).[k] = v.
Proof. unfold get, Settings, object in *. by rewrite lookup_insert_eq. Qed.

Lemma get_insert_ne (o : Settings) k k' v : k <> k' -> (<[k := v]> o).[k'] = o.[k'].
Proof. intros H. unfold get, Settings, object in *. by rewrite lookup_insert_ne. Qed.

Lemma column_named_elem_of cs v c : column_named cs v c -> c ∈ cs.
Proof.
  intros (pre & post & -> & _). apply elem_of_app. right. by left.
Qed.

Lemma map_type_getDefault_values hasLL series settings d :
  Map.map_type_getDefault hasLL series settings = Ok d ->
  d = "region" \/ d = "pin" \/ d = "heat" \/ d = "grid".
Proof.
  destruct series as [| s0 rest]; [discriminate |].
  rewrite map_type_getDefault_unfold.
  repeat match goal with
         | |- context [if ?b then _ else _] => destruct b
         end; intros [= <-]; auto.
Qed.

Lemma map_type_getDefault_grid hasLL s0 rest settings :
  Map.map_type_getDefault hasLL (s0 :: rest) settings = Ok "grid" ->
  binned_test (cols (data s0)) settings = true.
Proof.
  rewrite map_type_getDefault_unfold.
  repeat match goal with
         | |- context [if ?b then _ else _] => destruct b eqn:?
         end; try discriminate. reflexivity.
Qed.

(** X1: With "map.pin_type" at its default, the metric column setting is shown
    exactly on heat and grid maps. *)
Theorem metric_column_shown_for_heat_and_grid hasLL series vizSettings d :
  Map.default_of hasLL "map.pin_type" series vizSettings = Some (Ok d) ->
  vizSettings.["map.pin_type"] = VStr d ->
  exists b,
    Map.hidden hasLL "map.metric_column" series vizSettings = Some b
    /\ (b = false <-> vizSettings.["map.type"] = VStr "heat"
                      \/ vizSettings.["map.type"] = VStr "grid").
Proof.
  rewrite default_of_map_pin_type, hidden_metric_column.
  unfold Map.map_pin_type_getDefault, Map.metric_column_getHidden.
  intros Hd Hpin. eexists. split; [reflexivity |]. rewrite Hpin.
  destruct (strict_eq_string vizSettings.["map.type"] "heat") eqn:Eheat.
  { apply strict_eq_string_spec in Eheat. injection Hd as <-. rewrite Eheat.
    split; [by left | reflexivity]. }
  destruct (strict_eq_string vizSettings.["map.type"] "grid") eqn:Egrid.
  { apply strict_eq_string_spec in Egrid. injection Hd as <-. rewrite Egrid.
    split; [by right | reflexivity]. }
  apply strict_eq_string_false in Eheat, Egrid.
  destruct series as [| s0 rest]; [discriminate |].
  assert (d = "tiles" \/ d = "markers") as [-> | ->].
  { destruct (_ <=? _)%Z; injection Hd as <-; auto. }
  - rewrite orb_true_r. split; [discriminate | tauto].
  - rewrite orb_true_r. split; [discriminate | tauto].
Qed.

Lemma metric_column_shown_for_heat_and_grid_witness :
  exists b,
    Map.hidden has_coordinates "map.metric_column"
      (table_series [latitude_col; longitude_col] two_rows)
      (<["map.pin_type" := VStr "heat"]> heat_settings) = Some b
    /\ (b = false <->
        (<["map.pin_type" := VStr "heat"]> heat_settings).["map.type"] = VStr "heat"
        \/ (<["map.pin_type" := VStr "heat"]> heat_settings).["map.type"] = VStr "grid").
Proof.
  apply (metric_column_shown_for_heat_and_grid has_coordinates _ _ "heat");
    reflexivity.
Defined.

(** X2: A card displayed under one of the aliases gets its defaults from the
    alias alone: "pin_map" gives a pin map; "state" and "country" give a
    region map of US states and of world countries, whatever the columns and
    settings are. *)
Theorem alias_defaults hasLL (c : Card) (d : DatasetData) rest settings a :
  a ∈ aliases ->
  display c = VStr a ->
  Map.default_of hasLL "map.type" ({| card := c; data := d |} :: rest) settings
  = Some (Ok (if String.eqb a "pin_map" then "pin" else "region"))
  /\ (a <> "pin_map" ->
      Map.default_of hasLL "map.region" ({| card := c; data := d |} :: rest) settings
      = Some (Ok (if String.eqb a "country" then "world_countries" else "us_states"))).
Proof.
  unfold aliases. rewrite !elem_of_cons, elem_of_nil.
  rewrite default_of_map_type, default_of_map_region, map_type_getDefault_unfold.
  destruct c as [disp vs]. simpl.
  intros [-> | [-> | [-> | []]]] ->; split; try reflexivity; intros H; by destruct H.
Qed.

Lemma alias_defaults_witness :
  Map.default_of has_coordinates "map.type"
    [ {| card := {| display := VStr "country"; visualization_settings := ∅ |};
         data := {| cols := [latitude_col; longitude_col]; rows := two_rows |} |} ]
    binned_settings
  = Some (Ok "region")
  /\ Map.default_of has_coordinates "map.region"
       [ {| card := {| display := VStr "country"; visualization_settings := ∅ |};
            data := {| cols := [latitude_col; longitude_col]; rows := two_rows |} |} ]
       binned_settings
     = Some (Ok "world_countries").
Proof.
  destruct (alias_defaults has_coordinates
              {| display := VStr "country"; visualization_settings := ∅ |}
              {| cols := [latitude_col; longitude_col]; rows := two_rows |}
              [] binned_settings "country") as [Htype Hregion].
  - unfold aliases. rewrite !elem_of_cons. right. left. reflexivity.
  - reflexivity.
  - split; [exact Htype | apply Hregion; discriminate].
Defined.

(** X3: The column groups never show together: no pin-map setting is visible
    while a region setting is, and a heat setting is visible only while the
    coordinate settings are. *)
Theorem visibility_groups_exclusive hasLL (series : Series) (vizSettings : Settings) :
  (forall kp kr,
     kp ∈ ["map.pin_type"; "map.latitude_column"; "map.longitude_column";
           "map.metric_column"] ->
     kr ∈ ["map.region"; "map.metric"; "map.dimension"] ->
     ~ (Map.hidden hasLL kp series vizSettings = Some false
        /\ Map.hidden hasLL kr series vizSettings = Some false))
  /\ (forall kh kp,
     kh ∈ ["map.heat.radius"; "map.heat.blur"; "map.heat.min-opacity";
           "map.heat.max-zoom"] ->
     kp ∈ ["map.pin_type"; "map.latitude_column"; "map.longitude_column"] ->
     Map.hidden hasLL kh series vizSettings = Some false ->
     Map.hidden hasLL kp series vizSettings = Some false).
Proof.
  pose proof (region_test_not_pin vizSettings.["map.type"]) as Hexcl.
  split.
  - intros kp kr Hkp Hkr.
    rewrite (hidden_region_keys hasLL kr series vizSettings Hkr).
    assert (Map.hidden hasLL kp series vizSettings = Some false ->
            Map.PIN_MAP_TYPES_has vizSettings.["map.type"] = true) as Hpin.
    { apply elem_of_cons in Hkp as [-> | Hkp];
        [| apply elem_of_cons in Hkp as [-> | Hkp];
           [| apply elem_of_cons in Hkp as [-> | Hkp];
              [| apply elem_of_cons in Hkp as [-> | []%elem_of_nil] ] ] ];
        try rewrite hidden_metric_column;
        try (rewrite hidden_pin_keys by (rewrite !elem_of_cons; tauto));
        unfold Map.hidden_unless_pin, Map.metric_column_getHidden;
        destruct (Map.PIN_MAP_TYPES_has _); simpl; congruence. }
    unfold Map.hidden_unless_region.
    intros [Hp Hr]. specialize (Hpin Hp).
    destruct (strict_eq_string _ "region"); [| discriminate Hr].
    specialize (Hexcl eq_refl). congruence.
  - intros kh kp Hkh Hkp.
    rewrite (hidden_heat_keys hasLL kh series vizSettings Hkh).
    rewrite (hidden_pin_keys hasLL kp series vizSettings Hkp).
    unfold Map.hidden_unless_heat, Map.hidden_unless_pin.
    destruct (strict_eq_string _ "heat") eqn:Eheat; [| discriminate].
    apply strict_eq_string_spec in Eheat. rewrite Eheat. reflexivity.
Qed.

(** X4: A chart-settings error is raised only while the settings it asks for
    are visible. *)
Theorem chart_settings_error_names_visible_settings
        hasLL (series : Series) (settings : Settings) :
  (Map.checkRenderable series settings = Raise longitude_latitude_error ->
     Map.hidden hasLL "map.longitude_column" series settings = Some false
     /\ Map.hidden hasLL "map.latitude_column" series settings = Some false)
  /\ (Map.checkRenderable series settings = Raise region_metric_error ->
     Map.hidden hasLL "map.dimension" series settings = Some false
     /\ Map.hidden hasLL "map.metric" series settings = Some false).
Proof.
  destruct series as [| s0 rest]; [split; discriminate |].
  rewrite checkRenderable_cons.
  rewrite !(hidden_pin_keys hasLL) by (rewrite !elem_of_cons; tauto).
  rewrite !(hidden_region_keys hasLL) by (rewrite !elem_of_cons; tauto).
  unfold Map.hidden_unless_pin, Map.hidden_unless_region.
  destruct (Map.PIN_MAP_TYPES_has _).
  - split; [by intros _ |].
    destruct (truthy _ && truthy _); discriminate.
  - destruct (strict_eq_string _ "region"); [| split; discriminate].
    split; [| by intros _].
    destruct (truthy _ && truthy _); discriminate.
Qed.

(** X5: Whenever a default for "map.type" is chosen it is one of the values
    the select widget offers, and [render] draws a component for it. *)
Theorem default_map_type_is_offered_and_rendered hasLL series settings d :
  Map.default_of hasLL "map.type" series settings = Some (Ok d) ->
  d ∈ option_values map_type_options
  /\ forall p : Map.Props,
       (Map.settings_of p).["map.type"] = VStr d ->
       exists e, Map.render p = Some e /\ Map.elem_props e = p.
Proof.
  rewrite default_of_map_type. intros [= Hd].
  apply map_type_getDefault_values in Hd.
  split.
  - unfold option_values, map_type_options. simpl. rewrite !elem_of_cons. tauto.
  - intros p Hp. unfold Map.render. rewrite Hp.
    destruct Hd as [-> | [-> | [-> | ->]]]; eexists; split; reflexivity.
Qed.

Lemma default_map_type_is_offered_and_rendered_witness :
  "grid" ∈ option_values map_type_options
  /\ exists e, Map.render (with_type (VStr "grid")) = Some e
               /\ Map.elem_props e = with_type (VStr "grid").
Proof.
  destruct (default_map_type_is_offered_and_rendered has_coordinates
              (table_series [binned latitude_col; binned longitude_col] two_rows)
              binned_settings "grid" eq_refl) as [Hin Hrender].
  split; [exact Hin | apply Hrender; reflexivity].
Defined.

(** X6: Whenever a default for "map.pin_type" is chosen it is one of the
    declared option values, and it follows "map.type": it is "heat" exactly
    on a heat map and "grid" exactly on a grid map. *)
Theorem default_map_pin_type_follows_map_type hasLL series vizSettings d :
  Map.default_of hasLL "map.pin_type" series vizSettings = Some (Ok d) ->
  d ∈ option_values map_pin_type_options
  /\ (d = "heat" <-> vizSettings.["map.type"] = VStr "heat")
  /\ (d = "grid" <-> vizSettings.["map.type"] = VStr "grid").
Proof.
  rewrite default_of_map_pin_type. unfold Map.map_pin_type_getDefault.
  unfold option_values, map_pin_type_options. simpl. rewrite !elem_of_cons.
  destruct (strict_eq_string vizSettings.["map.type"] "heat") eqn:Eheat.
  { apply strict_eq_string_spec in Eheat. rewrite Eheat. intros [= <-].
    repeat split; try tauto; discriminate. }
  destruct (strict_eq_string vizSettings.["map.type"] "grid") eqn:Egrid.
  { apply strict_eq_string_spec in Egrid. rewrite Egrid. intros [= <-].
    repeat split; try tauto; discriminate. }
  apply strict_eq_string_false in Eheat, Egrid.
  destruct series as [| s0 rest]; [discriminate |].
  destruct (_ <=? _)%Z; intros [= <-]; repeat split; try tauto; try discriminate.
Qed.

Lemma default_map_pin_type_follows_map_type_witness :
  "markers" ∈ option_values map_pin_type_options
  /\ ("markers" = "heat" <-> no_settings.["map.type"] = VStr "heat")
  /\ ("markers" = "grid" <-> no_settings.["map.type"] = VStr "grid").
Proof.
  exact (default_map_pin_type_follows_map_type has_coordinates
           (table_series [latitude_col; longitude_col] two_rows)
           no_settings "markers" eq_refl).
Defined.

(** X7: When "grid" is the default chosen for "map.type" and no column has an
    empty name, the settings with "map.type" set to that default pass
    [checkRenderable]: the coordinate columns it needs are selected. *)
Theorem grid_default_is_renderable hasLL s0 rest (settings : Settings) :
  Map.default_of hasLL "map.type" (s0 :: rest) settings = Some (Ok "grid") ->
  (forall c, c ∈ cols (data s0) -> name c <> "") ->
  Map.checkRenderable (s0 :: rest) (<["map.type" := VStr "grid"]> settings) = Ok tt.
Proof.
  rewrite default_of_map_type. intros [= Hd] Hnames.
  apply (map_type_getDefault_grid hasLL s0 rest settings) in Hd.
  apply binned_test_spec in Hd.
  destruct Hd as (lat & lon & Hlat & Hlon & _).
  assert (forall v c, column_named (cols (data s0)) v c -> truthy v = true) as Hsel.
  { intros v c Hc. pose proof (column_named_elem_of _ _ _ Hc) as Hin.
    destruct Hc as (_ & _ & _ & -> & _). simpl.
    apply negb_true_iff, String.eqb_neq, Hnames, Hin. }
  rewrite checkRenderable_cons, get_insert_eq.
  rewrite !get_insert_ne by discriminate.
  rewrite (Hsel _ _ Hlat), (Hsel _ _ Hlon). reflexivity.
Qed.

Lemma grid_default_is_renderable_witness :
  Map.checkRenderable
    (table_series [binned latitude_col; binned longitude_col] two_rows)
    (<["map.type" := VStr "grid"]> binned_settings) = Ok tt.
Proof.
  unfold table_series.
  apply (grid_default_is_renderable has_coordinates); [reflexivity |].
  intros c. simpl. rewrite !elem_of_cons, elem_of_nil.
  intros [-> | [-> | []]]; discriminate.
Defined.

(** X8: [checkRenderable] never looks into the data: on a non-empty series its
    outcome depends on the settings alone, so it does not check that the
    selected columns exist among the result's columns. *)
Theorem checkRenderable_ignores_data s0 rest s0' rest' (settings : Settings) :
  Map.checkRenderable (s0 :: rest) settings
  = Map.checkRenderable (s0' :: rest') settings.
Proof. rewrite !checkRenderable_cons. reflexivity. Qed.

(** X9: [checkRenderable] and [render] disagree on unknown map types only in
    one direction: a configuration for which [render] draws nothing is never
    rejected, and a configuration rejected with a chart-settings error is one
    [render] would draw a component for. *)
Theorem render_nothing_is_not_rejected (p : Map.Props) s0 rest :
  (Map.render p = None ->
     Map.checkRenderable (s0 :: rest) (Map.settings_of p) = Ok tt)
  /\ (forall message section,
        Map.checkRenderable (s0 :: rest) (Map.settings_of p)
        = Raise (ChartSettingsError message section) ->
        exists e, Map.render p = Some e).
Proof.
  rewrite checkRenderable_cons. unfold Map.render.
  destruct (Map.PIN_MAP_TYPES_has _).
  - split; [discriminate | intros; by eexists].
  - destruct (strict_eq_string _ "region").
    + split; [discriminate | intros; by eexists].
    + split; [reflexivity | discriminate].
Qed.

(** * Further properties of LeafletHeatMap.jsx *)

Section HeatLayerProtocol.

Context {World : Type}.
Variable superMount : Props World -> foreign World.
Variable layerGroup_addTo : value -> foreign World.
Variable heatLayer_addTo : value -> value -> foreign World.
Variable super : Props World -> value -> value -> foreign World.
Variable setOptions : HeatOptions -> foreign World.
Variable setLatLngs : value -> foreign World.
Variable console_error : value -> World -> World.

Local Abbreviation update :=
  (componentDidUpdate World super setOptions setLatLngs console_error).

Local Abbreviation mount :=
  (componentDidMount superMount layerGroup_addTo heatLayer_addTo
     super setOptions setLatLngs console_error).

Lemma update_super_throws (p : Props World) prevProps prevState w log v w0 :
  super p prevProps prevState w = (Some v, w0) ->
  update p prevProps prevState (w, log)
  = (Raise (Thrown v), (w0, (log ++ [SuperComponentDidUpdate prevProps prevState])%list)).
Proof.
  intros Hsuper. unfold componentDidUpdate.
  unfold bind at 1, propagate at 1, try_catch at 1, invoke at 1.
  rewrite Hsuper. reflexivity.
Qed.


Lemma update_all_return (p : Props World) prevProps prevState w log w0 w1 w2 :
  super p prevProps prevState w = (None, w0) ->
  setOptions (forwarded_options p) w0 = (None, w1) ->
  setLatLngs (points p) w1 = (None, w2) ->
  update p prevProps prevState (w, log)
  = (Ok tt, (w2, (log ++ [SuperComponentDidUpdate prevProps prevState;
                          SetOptions (forwarded_options p);
                          SetLatLngs (points p)])%list)).
Proof.
  intros Hsuper Hopt Hpts.
  rewrite (update_after_super _ _ _ _ _ _ _ _ _ _ Hsuper).
  unfold try_catch, bind, invoke. rewrite Hopt, Hpts.
  rewrite <- !app_assoc. reflexivity.
Qed.

(** X10: When the inherited [componentDidUpdate] throws, the exception leaves
    [componentDidUpdate] as it is: the heat layer is not touched and nothing
    is reported through console.error or [onRenderError]. *)
Theorem componentDidUpdate_inherited_exception_propagates
        (p : Props World) prevProps prevState w log v w0 :
  super p prevProps prevState w = (Some v, w0) ->
  exists new,
    update p prevProps prevState (w, log) = (Raise (Thrown v), (w0, (log ++ new)%list))
    /\ forall c, c ∈ new ->
         ~ is_report c
         /\ (forall o, c <> SetOptions o)
         /\ (forall x, c <> SetLatLngs x).
Proof.
  intros Hsuper. exists [SuperComponentDidUpdate prevProps prevState].
  split; [by apply update_super_throws |].
  intros c ->%list_elem_of_singleton. repeat split; [intros [] | discriminate..].
Qed.


(** X12: An update never fails because of the heat layer: when the inherited
    update returns, the layer only ever throws values other than null and
    undefined, and [onRenderError] returns, [componentDidUpdate] returns
    normally. *)
Theorem componentDidUpdate_completes_normally
        (p : Props World) prevProps prevState w log w0 :
  super p prevProps prevState w = (None, w0) ->
  (forall o wa e wb, setOptions o wa = (Some e, wb) -> nullish e = false) ->
  (forall x wa e wb, setLatLngs x wa = (Some e, wb) -> nullish e = false) ->
  (forall arg wa, (onRenderError p arg wa).1 = None) ->
  exists w' new,
    update p prevProps prevState (w, log) = (Ok tt, (w', (log ++ new)%list)).
Proof.
  intros Hsuper Hopts Hpts Hreport.
  rewrite (update_after_super _ _ _ _ _ _ _ _ _ _ Hsuper).
  unfold try_catch, bind at 1, invoke at 1.
  destruct (setOptions (forwarded_options p) w0) as [[e |] w1] eqn:Hopt.
  - rewrite (handler_non_nullish console_error _ _ _ _ (Hopts _ _ _ _ Hopt)).
    rewrite Hreport. simpl. eexists _, _. by rewrite <- !app_assoc.
  - unfold invoke at 1.
    destruct (setLatLngs (points p) w1) as [[e |] w2] eqn:Hlat.
    + rewrite (handler_non_nullish console_error _ _ _ _ (Hpts _ _ _ _ Hlat)).
      rewrite Hreport. simpl. eexists _, _. by rewrite <- !app_assoc.
    + eexists _, _. by rewrite <- !app_assoc.
Qed.

(** X13: A failure while mounting is not reported as a render error: when the
    inherited [componentDidMount] or the creation of either layer throws, the
    exception leaves [componentDidMount], the later steps are skipped and no
    update runs (no call of [componentDidUpdate] is made). *)
Theorem componentDidMount_construction_failure_propagates
        (p : Props World) w log v w' :
  superMount p w = (Some v, w')
  \/ (exists w1, superMount p w = (None, w1)
                 /\ layerGroup_addTo (VObj []) w1 = (Some v, w'))
  \/ (exists w1 w2, superMount p w = (None, w1)
                    /\ layerGroup_addTo (VObj []) w1 = (None, w2)
                    /\ heatLayer_addTo (VObj []) (VObj [("radius", VNum 25)]) w2
                       = (Some v, w')) ->
  mount p (w, log) = (Raise (Thrown v), (w', log)).
Proof.
  unfold componentDidMount, bind, perform.
  intros [H | [(w1 & H1 & H2) | (w1 & w2 & H1 & H2 & H3)]].
  - rewrite H. reflexivity.
  - rewrite H1, H2. reflexivity.
  - rewrite H1, H2, H3. reflexivity.
Qed.

(** X14: A mount in which nothing throws ends with the first update: the new
    heat layer, created with no points and radius 25, is given the options
    and the points of the props before [componentDidMount] returns. *)
Theorem componentDidMount_pushes_props
        (p : Props World) w log w1 w2 w3 w4 w5 w6 :
  superMount p w = (None, w1) ->
  layerGroup_addTo (VObj []) w1 = (None, w2) ->
  heatLayer_addTo (VObj []) (VObj [("radius", VNum 25)]) w2 = (None, w3) ->
  super p (VObj []) (VObj []) w3 = (None, w4) ->
  setOptions (forwarded_options p) w4 = (None, w5) ->
  setLatLngs (points p) w5 = (None, w6) ->
  mount p (w, log)
  = (Ok tt, (w6, (log ++ [SuperComponentDidUpdate (VObj []) (VObj []);
                          SetOptions (forwarded_options p);
                          SetLatLngs (points p)])%list)).
Proof.
  intros H1 H2 H3 Hsuper Hopt Hpts.
  unfold componentDidMount, bind at 1 2 3, perform.
  rewrite H1, H2, H3.
  exact (update_all_return _ _ _ _ _ _ _ _ Hsuper Hopt Hpts).
Qed.

End HeatLayerProtocol.

Lemma componentDidUpdate_inherited_exception_propagates_witness :
  exists new,
    componentDidUpdate Leaflet.world
      (LeafletMount.super_throwing LeafletMount.no_map_error)
      Leaflet.setOptions_ok Leaflet.setLatLngs_ok Leaflet.console_error
      Leaflet.sample_props (VObj []) (VObj []) (Leaflet.initial, [])
    = (Raise (Thrown LeafletMount.no_map_error), (Leaflet.initial, ([] ++ new)%list))
    /\ forall c, c ∈ new ->
         ~ is_report c
         /\ (forall o, c <> SetOptions o)
         /\ (forall x, c <> SetLatLngs x).
Proof.
  exact (componentDidUpdate_inherited_exception_propagates
           (LeafletMount.super_throwing LeafletMount.no_map_error)
           Leaflet.setOptions_ok Leaflet.setLatLngs_ok Leaflet.console_error
           Leaflet.sample_props (VObj []) (VObj []) Leaflet.initial []
           LeafletMount.no_map_error Leaflet.initial eq_refl).
Defined.

Lemma componentDidUpdate_completes_normally_witness :
  exists w' new,
    componentDidUpdate Leaflet.world Leaflet.super_ok
      (Leaflet.setOptions_throwing Leaflet.range_error) Leaflet.setLatLngs_ok
      Leaflet.console_error Leaflet.sample_props (VObj []) (VObj [])
      (Leaflet.initial, [])
    = (Ok tt, (w', ([] ++ new)%list)).
Proof.
  apply (componentDidUpdate_completes_normally
           Leaflet.super_ok (Leaflet.setOptions_throwing Leaflet.range_error)
           Leaflet.setLatLngs_ok Leaflet.console_error
           Leaflet.sample_props (VObj []) (VObj []) Leaflet.initial []
           Leaflet.initial eq_refl).
  - intros o wa e wb [= <- _]. reflexivity.
  - intros x wa e wb [=].
  - intros arg wa. reflexivity.
Defined.

Lemma componentDidMount_construction_failure_propagates_witness :
  componentDidMount LeafletMount.superMount_ok LeafletMount.layerGroup_ok
    (LeafletMount.heatLayer_throwing LeafletMount.no_map_error)
    Leaflet.super_ok Leaflet.setOptions_ok Leaflet.setLatLngs_ok
    Leaflet.console_error Leaflet.sample_props (Leaflet.initial, [])
  = (Raise (Thrown LeafletMount.no_map_error), (Leaflet.initial, [])).
Proof.
  apply (componentDidMount_construction_failure_propagates
           LeafletMount.superMount_ok LeafletMount.layerGroup_ok
           (LeafletMount.heatLayer_throwing LeafletMount.no_map_error)
           Leaflet.super_ok Leaflet.setOptions_ok Leaflet.setLatLngs_ok
           Leaflet.console_error).
  right. right. exists Leaflet.initial, Leaflet.initial.
  split; [reflexivity | split; reflexivity].
Defined.

Lemma componentDidMount_pushes_props_witness :
  componentDidMount LeafletMount.superMount_ok LeafletMount.layerGroup_ok
    LeafletMount.heatLayer_ok
    Leaflet.super_ok Leaflet.setOptions_ok Leaflet.setLatLngs_ok
    Leaflet.console_error Leaflet.sample_props (Leaflet.initial, [])
  = (Ok tt,
     ({| Leaflet.layer_options := Some Leaflet.sample_options;
         Leaflet.layer_latlngs := Some Leaflet.sample_points;
         Leaflet.console := []; Leaflet.reported := [] |},
      [SuperComponentDidUpdate (VObj []) (VObj []);
       SetOptions Leaflet.sample_options;
       SetLatLngs Leaflet.sample_points])).
Proof.
  exact (componentDidMount_pushes_props
           LeafletMount.superMount_ok LeafletMount.layerGroup_ok
           LeafletMount.heatLayer_ok
           Leaflet.super_ok Leaflet.setOptions_ok Leaflet.setLatLngs_ok
           Leaflet.console_error Leaflet.sample_props Leaflet.initial []
           _ _ _ _ _ _ eq_refl eq_refl eq_refl eq_refl eq_refl eq_refl).
Defined.
